(** * Thread-pointer-base offset discovery and LoaderInfo

    A shallow embedding of two files of the profiling agent:

    - [tracer/tpbase.go]: [loadKernelCode] (the code extraction bridge) and
      [loadTPBaseOffset] (the discovery orchestrator);
    - [interpreter/loaderinfo.go]: the [LoaderInfo] record, its constructor
      and its accessors.

    Go values are modelled as follows.  Unsigned machine integers are [Z]
    with the conversions written out ([uint64]); byte slices are
    [list byte], a nil slice being [None] of [option (list byte)]; a Go
    [error] is a [goerror], the nil error being [None]; a function with
    several results returns a tuple.  The kernel and the process state that
    [loadKernelCode] acts on (the two eBPF maps, the memlock limit, loaded
    programs and tracepoint attachments) is a [world] that is passed through
    every call; whether a kernel call fails is decided by an arbitrary
    function of the call and of the current world, so that every theorem
    holds for every behaviour of the environment.

    What the two files take from elsewhere is a parameter of the model:
    the dump length [support.CodedumpBytes], the analyzers of
    [tpbase.GetAnalyzers], [hex.Dump], and the outcome of each call into
    the [cebpf], [link] and [rlimit] packages. The map and collection
    handles passed to [loadKernelCode] are taken to be valid, so that the
    function returns rather than panics; one discovery runs at a time, as
    the callers ensure; logging is left out. *)

From Stdlib Require Import ZArith List HexString Lia Bool.
From Stdlib.Strings Require Import Byte.
From stdpp Require Import gmap strings pretty.

Local Open Scope Z_scope.

(** ** Go errors and formatting *)

(** [errors.New] and [fmt.Errorf] without a [%w] verb build an error that
    holds its text only; [fmt.Errorf] with [%w] also keeps the error it
    wraps, which [errors.Unwrap] returns. *)
Inductive goerror : Type :=
| errors_New (text : string)
| wrapError (text : string) (inner : goerror).

Definition Error (e : goerror) : string :=
  match e with
  | errors_New text => text
  | wrapError text _ => text
  end.

Definition Unwrap (e : goerror) : option goerror :=
  match e with
  | errors_New _ => None
  | wrapError _ inner => Some inner
  end.

(** [fmt.Errorf(prefix + "%v", err)]: the text of [err] is copied, the error
    itself is not kept. *)
Definition Errorf_v (prefix : string) (err : goerror) : goerror :=
  errors_New (prefix +:+ Error err).

(** [fmt.Errorf("%w: %s", err, s)]. *)
Definition Errorf_w (err : goerror) (s : string) : goerror :=
  wrapError (Error err +:+ ": " +:+ s) err.

(** The verbs [%v] (decimal) and [0x%x] (lower-case hexadecimal) at an
    unsigned integer. *)
Definition fmt_v (n : Z) : string := pretty n.
Definition fmt_0x (n : Z) : string := HexString.of_Z n.

Definition uint64 (n : Z) : Z := n mod 2 ^ 64.

(** ** interpreter/loaderinfo.go *)

(** [libpf.Range]. *)
Record Range : Type := { Start : Z; End : Z }.

(** [LoaderInfo]; [host.FileID] is a 64-bit integer, the ELF reference is a
    pointer into the [pfelf] cache and stays abstract. *)
Record LoaderInfo (Reference : Type) : Type := {
  fileID : Z;
  elfRef : Reference;
  gaps : list Range
}.
Arguments fileID {Reference} _.
Arguments elfRef {Reference} _.
Arguments gaps {Reference} _.

Definition NewLoaderInfo {Reference : Type}
    (fileID0 : Z) (elfRef0 : Reference) (gaps0 : list Range) : LoaderInfo Reference :=
  {| fileID := fileID0; elfRef := elfRef0; gaps := gaps0 |}.

Definition FileID {Reference : Type} (i : LoaderInfo Reference) : Z := fileID i.

Definition Gaps {Reference : Type} (i : LoaderInfo Reference) : list Range := gaps i.

(** ** tracer/tpbase.go: the data *)

(** [libpf.Symbol], an entry of the kernel symbol table. *)
Record Symbol : Type := { Name : string; Address : Z; Size : Z }.

(** [tpbase.Analyzer]: a kernel function name and the decoder of its code;
    [Analyze] returns [(uint32, error)]. *)
Record Analyzer : Type := {
  FunctionName : string;
  Analyze : list byte -> Z * option goerror
}.

(** [RLIMIT_MEMLOCK]. *)
Inductive rlimit : Type :=
| Rlimit (cur : Z)
| RLIM_INFINITY.

(** The calls [loadKernelCode] makes into the kernel, each named after the
    source line that makes it. The last three are the deferred releases. *)
Inductive kcall : Type :=
| UpdateAddr (v : Z)
| MemlockRaise
| ProgLoad
| TracepointAttach
| LookupCode
| UpdateCode
| TracepointClose
| ProgClose
| MemlockRestore.

(** The state outside the function: slot 0 of the maps "codedump_addr"
    (a [u64]) and "codedump_code" (a buffer of [support.CodedumpBytes]
    bytes), the memlock limit of the process, how many restricted programs
    the process holds loaded, how many attachments to
    [syscalls:sys_enter_bpf] it holds, and the calls made so far, oldest
    first, each with whether it succeeded. *)
Record world : Type := World {
  codedump_addr : Z;
  codedump_code : list byte;
  memlock : rlimit;
  programs : nat;
  tracepoints : nat;
  history : list (kcall * bool)
}.

Definition set_codedump_addr (v : Z) (w : world) : world :=
  World v (codedump_code w) (memlock w) (programs w) (tracepoints w) (history w).

Definition set_codedump_code (c : list byte) (w : world) : world :=
  World (codedump_addr w) c (memlock w) (programs w) (tracepoints w) (history w).

Definition set_memlock (l : rlimit) (w : world) : world :=
  World (codedump_addr w) (codedump_code w) l (programs w) (tracepoints w) (history w).

Definition set_programs (n : nat) (w : world) : world :=
  World (codedump_addr w) (codedump_code w) (memlock w) n (tracepoints w) (history w).

Definition set_tracepoints (n : nat) (w : world) : world :=
  World (codedump_addr w) (codedump_code w) (memlock w) (programs w) n (history w).

Definition record (c : kcall) (ok : bool) (w : world) : world :=
  World (codedump_addr w) (codedump_code w) (memlock w) (programs w) (tracepoints w)
        (history w ++ [(c, ok)]).

(** Deferred calls of one function activation, the most recently deferred
    first: Go runs them in that order when the function returns. *)
Definition run_deferred (deferred : list (world -> world)) (w : world) : world :=
  fold_left (fun w d => d w) deferred w.

Definition byte_of_Z (z : Z) : byte :=
  default x00 (Byte.of_N (Z.to_N (z mod 256))).

(** A [uint32] in memory (little endian). *)
Definition le32 (v : Z) : list byte :=
  map (fun i => byte_of_Z (Z.shiftr v (8 * i))) [0; 1; 2; 3].

#[global] Instance kcall_eq_dec : EqDecision kcall.
Proof. solve_decision. Defined.

(** How often the call [c] succeeded in a stretch of history. *)
Definition succeeded (c : kcall) (calls : list (kcall * bool)) : nat :=
  length (filter (fun e => e = (c, true)) calls).

(** ** interpreter/loaderinfo.go: the methods that go through the ELF *)

Section LoaderInfoMethods.

(** [pfelf.Reference] and [pfelf.File] and the state of the [pfelf] package
    (open files, caches) that their methods read and change. *)
Variables Reference File pfelf : Type.

(** [Reference.GetELF], [Reference.FileName] and [File.LookupSymbol] of the
    [pfelf] package. *)
Variable Reference_GetELF : Reference -> pfelf -> (goerror + File) * pfelf.
Variable Reference_FileName : Reference -> string.
Variable File_LookupSymbol : File -> string -> pfelf -> (goerror + Symbol) * pfelf.

Definition GetELF (i : LoaderInfo Reference) (st : pfelf) : (goerror + File) * pfelf :=
  Reference_GetELF (elfRef i) st.

Definition FileName (i : LoaderInfo Reference) : string :=
  Reference_FileName (elfRef i).

(** [GetSymbolAsRanges]; the sum [start + uint64(sym.Size)] is taken in
    [uint64]. *)
Definition GetSymbolAsRanges (i : LoaderInfo Reference) (symbol : string) (st : pfelf)
    : (option (list Range) * option goerror) * pfelf :=
  match GetELF i st with
  | (inl err, st) => ((None, Some err), st)
  | (inr ef, st) =>
      match File_LookupSymbol ef symbol st with
      | (inl err, st) =>
          ((None, Some (wrapError ("symbol '" +:+ symbol +:+ "' not found: " +:+ Error err)
                          err)), st)
      | (inr sym, st) =>
          let start := uint64 (Address sym) in
          ((Some [ {| Start := start; End := uint64 (start + uint64 (Size sym)) |} ], None),
           st)
      end
  end.

End LoaderInfoMethods.

Arguments GetELF {Reference File pfelf} _ _ _.
Arguments FileName {Reference} _ _.
Arguments GetSymbolAsRanges {Reference File pfelf} _ _ _ _ _.

(** ** Fixtures

    A kernel whose memory holds a little-endian [uint32] at one address, a
    decoder that reads it back, a decoder that never recognises the code,
    and three analyzers in priority order. The dump length of the fixtures
    is 128 bytes. *)

Definition fx_CodedumpBytes : nat := 128.

Definition fx_base : Z := 0xffffffff81000000.

Definition fx_kmem (v : Z) : Z -> option byte :=
  fun a => Some (if fx_base <=? a then nth (Z.to_nat (a - fx_base)) (le32 v) x00 else x00).

Definition fx_never_fails : kcall -> world -> option goerror :=
  fun _ _ => None.

Definition fx_EPERM : goerror := errors_New "operation not permitted".

Definition fx_ProgLoad_fails : kcall -> world -> option goerror :=
  fun c _ => match c with ProgLoad => Some fx_EPERM | _ => None end.

Definition fx_behind_zero : nat -> byte := fun _ => x00.

Definition fx_behind_ff : nat -> byte := fun _ => xff.

Definition fx_hex_Dump : list byte -> string :=
  fun code => pretty (length code) +:+ " bytes".

Definition fx_decode_u32 (code : list byte) : Z * option goerror :=
  match code with
  | b0 :: b1 :: b2 :: b3 :: _ =>
      (Z.of_N (Byte.to_N b0) + 256 * Z.of_N (Byte.to_N b1)
       + 65536 * Z.of_N (Byte.to_N b2) + 16777216 * Z.of_N (Byte.to_N b3), None)
  | _ => (0, Some (errors_New "code too short"))
  end.

Definition fx_no_pattern : goerror := errors_New "unexpected instruction pattern".

Definition fx_decode_fails (code : list byte) : Z * option goerror :=
  (0, Some fx_no_pattern).

Definition fx_first : Analyzer := {| FunctionName := "kfunc_first"; Analyze := fx_decode_u32 |}.
Definition fx_second : Analyzer := {| FunctionName := "kfunc_second"; Analyze := fx_decode_u32 |}.
Definition fx_third : Analyzer := {| FunctionName := "kfunc_third"; Analyze := fx_decode_u32 |}.
Definition fx_first_mismatch : Analyzer :=
  {| FunctionName := "kfunc_first"; Analyze := fx_decode_fails |}.

Definition fx_analyzers : list Analyzer := [fx_first; fx_second; fx_third].

Definition fx_symbol (name : string) : Symbol :=
  {| Name := name; Address := fx_base; Size := 64 |}.

(** Symbol tables: only the third analyzer's function; none of them; the
    first two. *)
Definition fx_only_third : gmap string Symbol :=
  {[ "kfunc_third"%string := fx_symbol "kfunc_third" ]}.

Definition fx_unrelated : gmap string Symbol :=
  {[ "schedule"%string := fx_symbol "schedule" ]}.

Definition fx_first_two : gmap string Symbol :=
  <[ "kfunc_first"%string := fx_symbol "kfunc_first" ]>
    {[ "kfunc_second"%string := fx_symbol "kfunc_second" ]}.

Definition fx_world : world :=
  World 0 (replicate fx_CodedumpBytes x00) (Rlimit 65536) 0 0 [].

(** An ELF with two symbols, the second of which ends beyond the top of
    the address space; opening it counts in the state; the reference with
    the empty name cannot be opened. *)
Definition fx_elf : gmap string Symbol :=
  <[ "top"%string := {| Name := "top"; Address := 2 ^ 64 - 16; Size := 32 |} ]>
    {[ "PyEval_EvalFrame"%string :=
         {| Name := "PyEval_EvalFrame"; Address := 0x4000; Size := 0x20 |} ]}.

Definition fx_ENOENT : goerror := errors_New "no such file or directory".

Definition fx_symbol_not_found : goerror := errors_New "symbol not found".

Definition fx_GetELF (ref : string) (opened : nat)
    : (goerror + gmap string Symbol) * nat :=
  if String.eqb ref "" then (inl fx_ENOENT, opened) else (inr fx_elf, S opened).

Definition fx_LookupSymbol (ef : gmap string Symbol) (name : string) (opened : nat)
    : (goerror + Symbol) * nat :=
  match ef !! name with
  | Some sym => (inr sym, opened)
  | None => (inl fx_symbol_not_found, opened)
  end.

Definition fx_loader : LoaderInfo string := NewLoaderInfo 42 "/usr/bin/python3"%string [].

Definition fx_loader_gone : LoaderInfo string := NewLoaderInfo 43 ""%string [].

(** ** tracer/tpbase.go: the operations *)

Section Tracer.

(** [support.CodedumpBytes], the length of a code dump and the value size
    of the map "codedump_code". *)
Variable CodedumpBytes : nat.

(** The environment: [fails c w] is the error with which the call [c]
    fails when made in the world [w], if it fails. *)
Variable fails : kcall -> world -> option goerror.

(** Kernel memory, byte by byte; [None] where a read faults. *)
Variable kmem : Z -> option byte.

(** The process memory that lies behind the variable [value0] of
    [loadKernelCode]; Go does not say what it holds. *)
Variable behind_value0 : nat -> byte.

(** [hex.Dump] of the Go library. *)
Variable hex_Dump : list byte -> string.

(** [tpbase.GetAnalyzers()], the analyzers in their priority order. *)
Variable GetAnalyzers : list Analyzer.

(** Modelled from the spec: the restricted program
    [tracepoint__sys_enter_bpf] "copies N bytes starting at the input-map
    address into the output map"; a faulting read leaves the output map as
    it is. *)
Definition tracepoint__sys_enter_bpf (w : world) : world :=
  match mapM (fun i => kmem (codedump_addr w + Z.of_nat i)) (seq 0 CodedumpBytes) with
  | Some code => set_codedump_code code w
  | None => w
  end.

(** Modelled from the spec: entering a [bpf] system call fires the program
    when it is attached ("the triggering event precedes the syscall's own
    body"). *)
Definition sys_enter_bpf (w : world) : world :=
  match tracepoints w with
  | O => w
  | S _ => tracepoint__sys_enter_bpf w
  end.

(** [Map.Update] of "codedump_addr" with a pointer to a [uint64], whose
    eight bytes are one value of that map. *)
Definition Map_Update_addr (v : Z) (w : world) : option goerror * world :=
  let w := sys_enter_bpf w in
  match fails (UpdateAddr v) w with
  | Some err => (Some err, record (UpdateAddr v) false w)
  | None => (None, record (UpdateAddr v) true (set_codedump_addr v w))
  end.

(** Modelled from the spec: [rlimit.MaximizeMemlock] raises the limit and
    returns the function that puts the previous limit back ("schedule
    restoration on exit"). On failure the limit is untouched and no
    function is returned. *)
Definition MaximizeMemlock (w : world) : (goerror + (world -> world)) * world :=
  match fails MemlockRaise w with
  | Some err => (inl err, record MemlockRaise false w)
  | None =>
      let oldLimit := memlock w in
      (inr (fun w' => record MemlockRestore true (set_memlock oldLimit w')),
       record MemlockRaise true (set_memlock RLIM_INFINITY w))
  end.

(** [cebpf.NewProgram] and [prog.Close]. *)
Definition NewProgram (w : world) : option goerror * world :=
  let w := sys_enter_bpf w in
  match fails ProgLoad w with
  | Some err => (Some err, record ProgLoad false w)
  | None => (None, record ProgLoad true (set_programs (S (programs w)) w))
  end.

Definition Program_Close (w : world) : world :=
  record ProgClose true (set_programs (pred (programs w)) w).

(** [link.Tracepoint] and [perfEvent.Close]. *)
Definition Tracepoint (w : world) : option goerror * world :=
  match fails TracepointAttach w with
  | Some err => (Some err, record TracepointAttach false w)
  | None => (None, record TracepointAttach true (set_tracepoints (S (tracepoints w)) w))
  end.

Definition Link_Close (w : world) : world :=
  record TracepointClose true (set_tracepoints (pred (tracepoints w)) w).

(** [Map.Lookup] of "codedump_code" into a [*[]byte]: on success the slice
    is the value of the slot, on failure it is left as it was. *)
Definition Map_Lookup_code (valueOut : list byte) (w : world)
    : option goerror * list byte * world :=
  let w := sys_enter_bpf w in
  match fails LookupCode w with
  | Some err => (Some err, valueOut, record LookupCode false w)
  | None => (None, codedump_code w, record LookupCode true w)
  end.

(** What the kernel copies from [unsafe.Pointer(&value0)] when it is asked
    for [n] bytes: the four bytes of the variable, then the memory behind
    it. *)
Definition user_memory_at_value0 (value0 : Z) (n : nat) : list byte :=
  take n (le32 value0 ++ map behind_value0 (seq 0 (n - 4))).

(** [Map.Update] of "codedump_code" with the raw pointer
    [unsafe.Pointer(&value0)]: a value given as [unsafe.Pointer] is handed
    to the system call as it is, without a length, and the kernel copies
    as many bytes from it as the map's values have. *)
Definition Map_Update_code (value0 : Z) (w : world) : option goerror * world :=
  let w := sys_enter_bpf w in
  match fails UpdateCode w with
  | Some err => (Some err, record UpdateCode false w)
  | None =>
      (None, record UpdateCode true
               (set_codedump_code (user_memory_at_value0 value0 CodedumpBytes) w))
  end.

(** [loadKernelCode]. The arguments [coll] and [maps] of the source are the
    handles to the restricted program and to the two maps, whose state is
    in the world. Every [return] runs the calls deferred so far; the
    results of the deferred calls are dropped, as in the source. *)
Definition loadKernelCode (functionAddress : Z) (w : world)
    : (option (list byte) * option goerror) * world :=
  let funcAddr := uint64 functionAddress in
  match Map_Update_addr funcAddr w with
  | (Some err, w) =>
      ((None, Some (Errorf_v ("failed to write codedump_addr " +:+ fmt_0x functionAddress
                              +:+ ": ") err)), w)
  | (None, w) =>
  match MaximizeMemlock w with
  | (inl err, w) => ((None, Some (Errorf_v "failed to adjust rlimit: " err)), w)
  | (inr restoreRlimit, w) =>
  let deferred := [restoreRlimit] in
  match NewProgram w with
  | (Some err, w) =>
      ((None, Some (Errorf_v "failed to load tracepoint__sys_enter_bpf: " err)),
       run_deferred deferred w)
  | (None, w) =>
  let deferred := Program_Close :: deferred in
  match Tracepoint w with
  | (Some err, w) =>
      ((None, Some (Errorf_v "failed to configure tracepoint: " err)),
       run_deferred deferred w)
  | (None, w) =>
  let deferred := Link_Close :: deferred in
  let codeDump := replicate CodedumpBytes x00 in
  match Map_Lookup_code codeDump w with
  | (Some err, _, w) =>
      ((None, Some (Errorf_v "failed to get codedump: " err)), run_deferred deferred w)
  | (None, codeDump, w) =>
  let value0 := 0 in
  match Map_Update_code value0 w with
  | (Some err, w) =>
      ((None, Some (Errorf_v "failed to delete element from codedump_code: " err)),
       run_deferred deferred w)
  | (None, w) => ((Some codeDump, None), run_deferred deferred w)
  end end end end end end.

(** Modelled from the spec: the kernel symbol table is a finite map from
    names to symbols, "lookup(name) → (address, size) | NotFound"; [None]
    stands for the non-nil error of [SymbolMap.LookupSymbol]. *)
Definition LookupSymbol (kernelSymbols : gmap string Symbol) (name : string)
    : option Symbol :=
  kernelSymbols !! name.

(** How the [for] loop of [loadTPBaseOffset] is left: by one of its
    [return] statements, or by [break] or exhaustion of the range with the
    current value of the variable [tpbaseOffset]. *)
Inductive loop_exit : Type :=
| Return (offset : Z) (err : option goerror)
| Fallthrough (tpbaseOffset : Z).

(** The [for] loop of [loadTPBaseOffset] over the remaining analyzers.
    The call of [log.Infof] is left out. *)
Fixpoint analyzer_loop (analyzers : list Analyzer) (kernelSymbols : gmap string Symbol)
    (tpbaseOffset : Z) (w : world) : loop_exit * world :=
  match analyzers with
  | [] => (Fallthrough tpbaseOffset, w)
  | analyzer :: analyzers =>
      match LookupSymbol kernelSymbols (FunctionName analyzer) with
      | None => analyzer_loop analyzers kernelSymbols tpbaseOffset w
      | Some sym =>
          match loadKernelCode (Address sym) w with
          | ((_, Some err), w) => (Return 0 (Some err), w)
          | ((code, None), w) =>
              let code := default [] code in
              match Analyze analyzer code with
              | (_, Some err) => (Return 0 (Some (Errorf_w err (hex_Dump code))), w)
              | (tpbaseOffset, None) => (Fallthrough tpbaseOffset, w)
              end
          end
      end
  end.

(** [loadTPBaseOffset]. *)
Definition loadTPBaseOffset (kernelSymbols : gmap string Symbol) (w : world)
    : (Z * option goerror) * world :=
  match analyzer_loop GetAnalyzers kernelSymbols 0 w with
  | (Return offset err, w) => ((offset, err), w)
  | (Fallthrough tpbaseOffset, w) =>
      if tpbaseOffset =? 0 then
        ((0, Some (errors_New "no supported symbol found")), w)
      else if (tpbaseOffset <? 500) || (tpbaseOffset >? 20000) then
        ((0, Some (errors_New ("tpbase offset " +:+ fmt_v tpbaseOffset
                               +:+ " doesn't look sane"))), w)
      else ((uint64 tpbaseOffset, None), w)
  end.

(** The representation invariant of the world: the slot of "codedump_code"
    holds as many bytes as the map's values have. *)
Definition wf_world (w : world) : Prop :=
  length (codedump_code w) = CodedumpBytes.

(** The resources a call can hold. *)
Definition resources (w : world) : rlimit * nat * nat :=
  (memlock w, programs w, tracepoints w).

(** The analyzers of [analyzers] whose function is missing from the symbol
    table are the ones the loop skips. *)
Definition unresolved (kernelSymbols : gmap string Symbol) (analyzer : Analyzer) : Prop :=
  LookupSymbol kernelSymbols (FunctionName analyzer) = None.

(** The offset that loadTPBaseOffset returns if read after the words "stops
    at the first analyzer whose symbol resolves and whose decode succeeds,
    returning that analyzer's decoded offset": an analyzer whose symbol does
    not resolve or whose decode fails is passed over. This definition
    follows the sentence, not the source. *)
Fixpoint spec_first_decoded_offset (analyzers : list Analyzer)
    (kernelSymbols : gmap string Symbol) (w : world) : option Z :=
  match analyzers with
  | [] => None
  | analyzer :: analyzers =>
      match LookupSymbol kernelSymbols (FunctionName analyzer) with
      | None => spec_first_decoded_offset analyzers kernelSymbols w
      | Some sym =>
          match loadKernelCode (Address sym) w with
          | ((Some code, None), w) =>
              match Analyze analyzer code with
              | (offset, None) => Some offset
              | (_, Some _) => spec_first_decoded_offset analyzers kernelSymbols w
              end
          | (_, _) => None
          end
      end
  end.

(** ** Properties of the extraction bridge *)

(** Firing the restricted program touches the slot of "codedump_code" and
    nothing else. *)
Lemma sys_enter_bpf_frame (w : world) :
  codedump_addr (sys_enter_bpf w) = codedump_addr w /\
  memlock (sys_enter_bpf w) = memlock w /\
  programs (sys_enter_bpf w) = programs w /\
  tracepoints (sys_enter_bpf w) = tracepoints w /\
  history (sys_enter_bpf w) = history w.
Proof.
  unfold sys_enter_bpf, tracepoint__sys_enter_bpf.
  destruct (tracepoints w) eqn:Ht; [by rewrite Ht|].
  destruct (mapM _ _); simpl; by rewrite ?Ht.
Qed.

Lemma sys_enter_bpf_history (w : world) :
  history (sys_enter_bpf w) = history w.
Proof. apply sys_enter_bpf_frame. Qed.

Lemma mapM_kmem_length (f : nat -> option byte) (l : list nat) (code : list byte) :
  mapM f l = Some code -> length code = length l.
Proof. intros H. symmetry. by apply length_mapM in H. Qed.

Lemma sys_enter_bpf_wf (w : world) :
  wf_world w -> wf_world (sys_enter_bpf w).
Proof.
  unfold wf_world, sys_enter_bpf, tracepoint__sys_enter_bpf. intros Hw.
  destruct (tracepoints w); [done|].
  destruct (mapM _ _) as [code|] eqn:Hread; [|done].
  simpl. apply mapM_kmem_length in Hread. by rewrite Hread, length_seq.
Qed.

Lemma sys_enter_bpf_memlock (w : world) : memlock (sys_enter_bpf w) = memlock w.
Proof. apply sys_enter_bpf_frame. Qed.

Lemma sys_enter_bpf_programs (w : world) : programs (sys_enter_bpf w) = programs w.
Proof. apply sys_enter_bpf_frame. Qed.

Lemma sys_enter_bpf_tracepoints (w : world) :
  tracepoints (sys_enter_bpf w) = tracepoints w.
Proof. apply sys_enter_bpf_frame. Qed.

Lemma sys_enter_bpf_codedump_addr (w : world) :
  codedump_addr (sys_enter_bpf w) = codedump_addr w.
Proof. apply sys_enter_bpf_frame. Qed.

Arguments sys_enter_bpf : simpl never.

(** Case analysis on the outcome of every kernel call of [loadKernelCode],
    in the order the source makes them. *)
Ltac kernel_step :=
  match goal with
  | |- context [fails ?c ?w] => destruct (fails c w) eqn:?
  end.

Ltac kernel_cases :=
  unfold loadKernelCode, Map_Update_addr, MaximizeMemlock, NewProgram, Tracepoint,
    Map_Lookup_code, Map_Update_code;
  cbv zeta; repeat kernel_step.

Ltac world_simpl :=
  unfold Program_Close, Link_Close in *; simpl in *;
  repeat (progress (rewrite ?sys_enter_bpf_memlock, ?sys_enter_bpf_programs,
                      ?sys_enter_bpf_tracepoints, ?sys_enter_bpf_codedump_addr,
                      ?sys_enter_bpf_history in *; simpl in * )).

Lemma user_memory_at_value0_length (value0 : Z) (n : nat) :
  length (user_memory_at_value0 value0 n) = n.
Proof.
  unfold user_memory_at_value0, le32.
  rewrite length_take, length_app, !length_map, length_seq. simpl. lia.
Qed.

(** What a successful extraction leaves behind and what it returns: the
    calls were made in the order address write, limit, load, attach, read,
    clear, detach, unload, restore; the bytes returned are the slot as the
    read found it; the slot afterwards holds what the kernel copied from
    the address of [value0]. *)
Lemma loadKernelCode_success (functionAddress : Z) (w w' : world) (code : list byte) :
  loadKernelCode functionAddress w = ((Some code, None), w') ->
  history w' = history w ++
    [(UpdateAddr (uint64 functionAddress), true); (MemlockRaise, true); (ProgLoad, true);
     (TracepointAttach, true); (LookupCode, true); (UpdateCode, true);
     (TracepointClose, true); (ProgClose, true); (MemlockRestore, true)] /\
  codedump_addr w' = uint64 functionAddress /\
  codedump_code w' = user_memory_at_value0 0 CodedumpBytes.
Proof.
  kernel_cases; simpl; intros H; try discriminate.
  injection H as <- <-. world_simpl.
  rewrite <- !app_assoc. done.
Qed.

(** The bytes a successful extraction returns are the kernel memory at the
    address asked for, wherever that memory can be read. *)
Lemma loadKernelCode_reads_kmem (functionAddress : Z) (w w' : world)
    (code bytes : list byte) :
  loadKernelCode functionAddress w = ((Some code, None), w') ->
  mapM (fun i => kmem (uint64 functionAddress + Z.of_nat i)) (seq 0 CodedumpBytes)
    = Some bytes ->
  code = bytes.
Proof.
  kernel_cases; simpl; intros H Hread; try discriminate.
  injection H as <- _.
  unfold sys_enter_bpf at 1. simpl.
  unfold tracepoint__sys_enter_bpf. world_simpl. by rewrite Hread.
Qed.

(** The invariant is kept by every call, whatever its outcome. *)
Lemma loadKernelCode_wf (functionAddress : Z) (w : world) :
  wf_world w -> wf_world (snd (loadKernelCode functionAddress w)).
Proof.
  intros Hw. kernel_cases; unfold wf_world, Program_Close, Link_Close; simpl;
    try apply user_memory_at_value0_length;
    repeat (apply sys_enter_bpf_wf; unfold wf_world; simpl); exact Hw.
Qed.

(** C6. Every call of [loadKernelCode], made in a world whose output slot
    has the length of the map's values, returns either a slice of exactly
    [CodedumpBytes] bytes and a nil error, or a nil slice and a non-nil
    error. *)
Theorem loadKernelCode_all_or_nothing (functionAddress : Z) (w : world) :
  wf_world w ->
  (exists code, fst (loadKernelCode functionAddress w) = (Some code, None) /\
                length code = CodedumpBytes) \/
  (exists err, fst (loadKernelCode functionAddress w) = (None, Some err)).
Proof.
  intros Hw. kernel_cases; simpl; try (right; eexists; reflexivity).
  left. eexists. split; [reflexivity|].
  repeat (apply sys_enter_bpf_wf; unfold wf_world; simpl). exact Hw.
Qed.

(** C8. On every exit path of [loadKernelCode] the memlock limit, the
    number of loaded programs and the number of tracepoint attachments are
    what they were before the call, and in the calls the function made
    every successful raise, load and attach is matched by its restore,
    close and detach. *)
Theorem loadKernelCode_releases (functionAddress : Z) (w : world) :
  resources (snd (loadKernelCode functionAddress w)) = resources w /\
  exists calls,
    history (snd (loadKernelCode functionAddress w)) = history w ++ calls /\
    succeeded MemlockRestore calls = succeeded MemlockRaise calls /\
    succeeded ProgClose calls = succeeded ProgLoad calls /\
    succeeded TracepointClose calls = succeeded TracepointAttach calls.
Proof.
  kernel_cases; unfold resources; world_simpl; (split; [reflexivity|]);
    rewrite <- ?app_assoc; eexists; (split; [reflexivity|]); vm_compute; done.
Qed.

(** ** Properties of the orchestrator *)

(** Analyzers whose function is not in the symbol table are passed over
    without any effect. *)
Lemma analyzer_loop_skip (pre rest : list Analyzer) (kernelSymbols : gmap string Symbol)
    (tpbaseOffset : Z) (w : world) :
  Forall (unresolved kernelSymbols) pre ->
  analyzer_loop (pre ++ rest) kernelSymbols tpbaseOffset w
  = analyzer_loop rest kernelSymbols tpbaseOffset w.
Proof.
  induction 1 as [|analyzer pre Hmiss _ IH]; [done|].
  simpl. unfold unresolved in Hmiss. by rewrite Hmiss.
Qed.

(** The loop at the first analyzer whose function resolves: everything is
    decided there, the analyzers after it play no part. *)
Lemma analyzer_loop_first_resolved (pre rest : list Analyzer) (analyzer : Analyzer)
    (kernelSymbols : gmap string Symbol) (sym : Symbol) (w : world) :
  Forall (unresolved kernelSymbols) pre ->
  LookupSymbol kernelSymbols (FunctionName analyzer) = Some sym ->
  analyzer_loop (pre ++ analyzer :: rest) kernelSymbols 0 w
  = match loadKernelCode (Address sym) w with
    | ((_, Some err), w) => (Return 0 (Some err), w)
    | ((code, None), w) =>
        match Analyze analyzer (default [] code) with
        | (_, Some err) => (Return 0 (Some (Errorf_w err (hex_Dump (default [] code)))), w)
        | (tpbaseOffset, None) => (Fallthrough tpbaseOffset, w)
        end
    end.
Proof.
  intros Hpre Hsym. rewrite analyzer_loop_skip by done. simpl. by rewrite Hsym.
Qed.

(** C1, amended. The analyzers before the first one whose function
    resolves are skipped and the loop stops at that one: it runs as if the
    list held this analyzer alone. If the extraction at its address and its
    decode succeed with an offset between 500 and 20000, the orchestrator
    returns this offset, in the world the one extraction left, whatever
    analyzers come later. *)
Theorem loadTPBaseOffset_first_resolved (pre rest : list Analyzer) (analyzer : Analyzer)
    (kernelSymbols : gmap string Symbol) (sym : Symbol) (w : world) :
  GetAnalyzers = pre ++ analyzer :: rest ->
  Forall (unresolved kernelSymbols) pre ->
  LookupSymbol kernelSymbols (FunctionName analyzer) = Some sym ->
  analyzer_loop GetAnalyzers kernelSymbols 0 w
  = analyzer_loop [analyzer] kernelSymbols 0 w /\
  forall (code : list byte) (w' : world) (v : Z),
    loadKernelCode (Address sym) w = ((Some code, None), w') ->
    Analyze analyzer code = (v, None) ->
    500 <= v <= 20000 ->
    loadTPBaseOffset kernelSymbols w = ((v, None), w').
Proof.
  intros HGet Hpre Hsym. split.
  - rewrite HGet, (analyzer_loop_first_resolved _ _ _ _ sym) by done.
    symmetry. by apply (analyzer_loop_first_resolved [] [] _ _ sym).
  - intros code w' v Hload Hdecode Hv. unfold loadTPBaseOffset.
    rewrite HGet, (analyzer_loop_first_resolved _ _ _ _ sym) by done.
    rewrite Hload. simpl. rewrite Hdecode.
    destruct (Z.eqb_spec v 0) as [->|_]; [lia|].
    destruct (Z.ltb_spec v 500); [lia|].
    rewrite Z.gtb_ltb. destruct (Z.ltb_spec 20000 v); [lia|]. simpl.
    unfold uint64. by rewrite Z.mod_small by lia.
Qed.

(** C2. If the extraction fails at an analyzer whose function resolved,
    the orchestrator returns offset 0 and that very error, in the world the
    failed extraction left: no later analyzer is tried. *)
Theorem loadTPBaseOffset_extraction_error_aborts (pre rest : list Analyzer)
    (analyzer : Analyzer) (kernelSymbols : gmap string Symbol) (sym : Symbol)
    (w w' : world) (code : option (list byte)) (err : goerror) :
  GetAnalyzers = pre ++ analyzer :: rest ->
  Forall (unresolved kernelSymbols) pre ->
  LookupSymbol kernelSymbols (FunctionName analyzer) = Some sym ->
  loadKernelCode (Address sym) w = ((code, Some err), w') ->
  loadTPBaseOffset kernelSymbols w = ((0, Some err), w').
Proof.
  intros HGet Hpre Hsym Hload. unfold loadTPBaseOffset.
  rewrite HGet, (analyzer_loop_first_resolved _ _ _ _ sym) by done.
  by rewrite Hload.
Qed.

(** C3. If the extraction succeeded and the analyzer's decode fails, the
    orchestrator returns offset 0 and an error that wraps the decode error
    and whose text is the decode error's text followed by the hex dump of
    the extracted bytes; no later analyzer is tried. *)
Theorem loadTPBaseOffset_decode_error_aborts (pre rest : list Analyzer)
    (analyzer : Analyzer) (kernelSymbols : gmap string Symbol) (sym : Symbol)
    (w w' : world) (code : list byte) (v : Z) (derr : goerror) :
  GetAnalyzers = pre ++ analyzer :: rest ->
  Forall (unresolved kernelSymbols) pre ->
  LookupSymbol kernelSymbols (FunctionName analyzer) = Some sym ->
  loadKernelCode (Address sym) w = ((Some code, None), w') ->
  Analyze analyzer code = (v, Some derr) ->
  exists err,
    loadTPBaseOffset kernelSymbols w = ((0, Some err), w') /\
    Unwrap err = Some derr /\
    Error err = Error derr +:+ ": " +:+ hex_Dump code.
Proof.
  intros HGet Hpre Hsym Hload Hdecode. exists (Errorf_w derr (hex_Dump code)).
  split; [|done]. unfold loadTPBaseOffset.
  rewrite HGet, (analyzer_loop_first_resolved _ _ _ _ sym) by done.
  rewrite Hload. simpl. by rewrite Hdecode.
Qed.

(** C4. When the loop is left with a decoded offset [v] other than 0, so
    that the validation is reached, [v] is returned unchanged with a nil
    error if 500 <= v <= 20000, and otherwise the result is offset 0 with
    the error "tpbase offset v doesn't look sane"; hence the result is
    accepted exactly when 500 <= v <= 20000. *)
Theorem loadTPBaseOffset_validation (kernelSymbols : gmap string Symbol) (w w' : world)
    (v : Z) :
  analyzer_loop GetAnalyzers kernelSymbols 0 w = (Fallthrough v, w') ->
  v <> 0 ->
  (500 <= v <= 20000 -> loadTPBaseOffset kernelSymbols w = ((v, None), w')) /\
  (~ 500 <= v <= 20000 ->
   loadTPBaseOffset kernelSymbols w
   = ((0, Some (errors_New ("tpbase offset " +:+ fmt_v v +:+ " doesn't look sane"))), w')) /\
  (snd (fst (loadTPBaseOffset kernelSymbols w)) = None <-> 500 <= v <= 20000).
Proof.
  intros Hloop Hv. unfold loadTPBaseOffset. rewrite Hloop.
  destruct (Z.eqb_spec v 0) as [|_]; [done|].
  rewrite Z.gtb_ltb.
  destruct (Z.ltb_spec v 500); destruct (Z.ltb_spec 20000 v); simpl;
    (split; [|split; [|split]]); intros; try lia; try done.
  unfold uint64. by rewrite Z.mod_small by lia.
Qed.

(** C5. If no analyzer's function is in the symbol table, the orchestrator
    returns offset 0 and the error "no supported symbol found", and the
    world is untouched. *)
Theorem loadTPBaseOffset_no_symbol (kernelSymbols : gmap string Symbol) (w : world) :
  Forall (unresolved kernelSymbols) GetAnalyzers ->
  loadTPBaseOffset kernelSymbols w
  = ((0, Some (errors_New "no supported symbol found")), w).
Proof.
  intros Hnone. unfold loadTPBaseOffset.
  rewrite <- (app_nil_r GetAnalyzers), analyzer_loop_skip by done. done.
Qed.

(** The orchestrator keeps the invariant of the world. *)
Lemma loadTPBaseOffset_wf (kernelSymbols : gmap string Symbol) (w : world) :
  wf_world w -> wf_world (snd (loadTPBaseOffset kernelSymbols w)).
Proof.
  assert (Hloop : forall analyzers tpbaseOffset w,
             wf_world w ->
             wf_world (snd (analyzer_loop analyzers kernelSymbols tpbaseOffset w))).
  { induction analyzers as [|analyzer analyzers IH]; intros tpbaseOffset w0 Hw; [done|].
    simpl. destruct (LookupSymbol _ _) as [sym|]; [|by apply IH].
    pose proof (loadKernelCode_wf (Address sym) w0 Hw) as Hw'.
    destruct (loadKernelCode _ _) as [[code [err|]] w1]; [done|].
    by destruct (Analyze _ _) as [v [err|]]. }
  intros Hw. unfold loadTPBaseOffset.
  pose proof (Hloop GetAnalyzers 0 w Hw) as Hw'.
  destruct (analyzer_loop _ _ _ _) as [[offset err|v] w1]; [done|].
  destruct (v =? 0); [done|]. by destruct (_ || _).
Qed.

(** C9. If the first analyzer that is reached decodes successfully to the
    value 0, the orchestrator returns the error "no supported symbol
    found", which is not the error of the range check. *)
Theorem loadTPBaseOffset_zero_is_not_found (pre rest : list Analyzer)
    (analyzer : Analyzer) (kernelSymbols : gmap string Symbol) (sym : Symbol)
    (w w' : world) (code : list byte) :
  GetAnalyzers = pre ++ analyzer :: rest ->
  Forall (unresolved kernelSymbols) pre ->
  LookupSymbol kernelSymbols (FunctionName analyzer) = Some sym ->
  loadKernelCode (Address sym) w = ((Some code, None), w') ->
  Analyze analyzer code = (0, None) ->
  loadTPBaseOffset kernelSymbols w
  = ((0, Some (errors_New "no supported symbol found")), w') /\
  snd (fst (loadTPBaseOffset kernelSymbols w))
  <> Some (errors_New ("tpbase offset " +:+ fmt_v 0 +:+ " doesn't look sane")).
Proof.
  intros HGet Hpre Hsym Hload Hdecode. unfold loadTPBaseOffset.
  rewrite HGet, (analyzer_loop_first_resolved _ _ _ _ sym) by done.
  rewrite Hload. simpl. rewrite Hdecode. simpl. split; [done|].
  intros [=].
Qed.

(** After a successful extraction the output slot has its full length;
    its first four bytes are the zero that [value0] holds, and every byte
    after them is the byte of process memory at the same distance behind
    [value0]. *)
Lemma loadKernelCode_slot_after_success (functionAddress : Z) (w w' : world)
    (code : list byte) :
  loadKernelCode functionAddress w = ((Some code, None), w') ->
  length (codedump_code w') = CodedumpBytes /\
  (forall i : nat, (i < 4)%nat -> (i < CodedumpBytes)%nat ->
     codedump_code w' !! i = Some x00) /\
  (forall i : nat, (4 <= i)%nat -> (i < CodedumpBytes)%nat ->
     codedump_code w' !! i = Some (behind_value0 (i - 4))).
Proof.
  intros H. apply loadKernelCode_success in H as (_ & _ & ->).
  split; [apply user_memory_at_value0_length|].
  unfold user_memory_at_value0.
  change (le32 0) with [x00; x00; x00; x00].
  split; intros i Hi HN; rewrite lookup_take_lt by done.
  - rewrite lookup_app_l by (simpl; lia).
    destruct i as [|[|[|[|i]]]]; simpl; try done. lia.
  - rewrite lookup_app_r by (simpl; lia). simpl.
    rewrite list_lookup_fmap, lookup_seq_lt by lia. done.
Qed.

(** ** Further properties of the extraction bridge *)

(** X1. Where [loadKernelCode] stops, what it has called by then, and in which
    order it releases: the calls are made in the order address write, limit,
    program load, attach, read, clear; the first failing call is the last
    one made; then the attachment is closed, the program is closed and the
    limit is restored, in this order, each only if it was acquired. The
    error is nil exactly when all six calls succeeded. *)
Theorem loadKernelCode_call_order (functionAddress : Z) (w : world) :
  let r := loadKernelCode functionAddress w in
  let U := (UpdateAddr (uint64 functionAddress), true) in
  (snd (fst r) <> None /\
   (history (snd r) = history w ++ [(UpdateAddr (uint64 functionAddress), false)] \/
    history (snd r) = history w ++ [U; (MemlockRaise, false)] \/
    history (snd r) = history w ++
      [U; (MemlockRaise, true); (ProgLoad, false); (MemlockRestore, true)] \/
    history (snd r) = history w ++
      [U; (MemlockRaise, true); (ProgLoad, true); (TracepointAttach, false);
       (ProgClose, true); (MemlockRestore, true)] \/
    history (snd r) = history w ++
      [U; (MemlockRaise, true); (ProgLoad, true); (TracepointAttach, true);
       (LookupCode, false);
       (TracepointClose, true); (ProgClose, true); (MemlockRestore, true)] \/
    history (snd r) = history w ++
      [U; (MemlockRaise, true); (ProgLoad, true); (TracepointAttach, true);
       (LookupCode, true); (UpdateCode, false);
       (TracepointClose, true); (ProgClose, true); (MemlockRestore, true)])) \/
  (snd (fst r) = None /\
   history (snd r) = history w ++
     [U; (MemlockRaise, true); (ProgLoad, true); (TracepointAttach, true);
      (LookupCode, true); (UpdateCode, true);
      (TracepointClose, true); (ProgClose, true); (MemlockRestore, true)]).
Proof.
  cbv zeta. kernel_cases; world_simpl; rewrite <- ?app_assoc; simpl.
  - left. split; [done|]. by left.
  - left. split; [done|]. right. by left.
  - left. split; [done|]. do 2 right. by left.
  - left. split; [done|]. do 3 right. by left.
  - left. split; [done|]. do 4 right. by left.
  - left. split; [done|]. do 5 right. done.
  - right. done.
Qed.


(** X3. The input slot is written once and never cleared: when the address
    write succeeds, the slot holds the address as a [uint64] at the return,
    on every path. *)
Theorem loadKernelCode_leaves_address (functionAddress : Z) (w : world) :
  fails (UpdateAddr (uint64 functionAddress)) (sys_enter_bpf w) = None ->
  codedump_addr (snd (loadKernelCode functionAddress w)) = uint64 functionAddress.
Proof.
  intros Hwrite. unfold loadKernelCode, Map_Update_addr. cbv zeta. rewrite Hwrite.
  kernel_cases; world_simpl; done.
Qed.

(** An extraction without error carries a slice. *)
Lemma loadKernelCode_nil_error_has_code (functionAddress : Z) (w : world)
    (code : option (list byte)) :
  fst (loadKernelCode functionAddress w) = (code, None) -> exists bytes, code = Some bytes.
Proof. kernel_cases; simpl; intros [= <-]; eauto. Qed.

Lemma loadKernelCode_resources (functionAddress : Z) (w : world) :
  resources (snd (loadKernelCode functionAddress w)) = resources w.
Proof. kernel_cases; unfold resources; world_simpl; reflexivity. Qed.

(** ** Further properties of the orchestrator *)

(** Every analyzer list splits at its first resolving analyzer, unless none
    resolves. *)
Lemma first_resolved_split (analyzers : list Analyzer) (kernelSymbols : gmap string Symbol) :
  Forall (unresolved kernelSymbols) analyzers \/
  exists pre analyzer rest sym,
    analyzers = pre ++ analyzer :: rest /\
    Forall (unresolved kernelSymbols) pre /\
    LookupSymbol kernelSymbols (FunctionName analyzer) = Some sym.
Proof.
  induction analyzers as [|analyzer analyzers IH]; [by left|].
  destruct (LookupSymbol kernelSymbols (FunctionName analyzer)) as [sym|] eqn:Hsym.
  - right. by exists [], analyzer, analyzers, sym.
  - destruct IH as [Hall|(pre & a & rest & sym & -> & Hpre & Ha)].
    + left. by constructor.
    + right. exists (analyzer :: pre), a, rest, sym. repeat split; [|done].
      by constructor.
Qed.

(** The loop is left either by a [return] of offset 0 with an error, or
    with a value of [tpbaseOffset]. *)
Lemma analyzer_loop_exit_shape (analyzers : list Analyzer)
    (kernelSymbols : gmap string Symbol) (tpbaseOffset : Z) (w : world) :
  (exists err, fst (analyzer_loop analyzers kernelSymbols tpbaseOffset w)
               = Return 0 (Some err)) \/
  (exists v, fst (analyzer_loop analyzers kernelSymbols tpbaseOffset w) = Fallthrough v).
Proof.
  revert w. induction analyzers as [|analyzer analyzers IH]; intros w0; simpl; [eauto|].
  destruct (LookupSymbol _ _) as [sym|]; [|apply IH].
  destruct (loadKernelCode _ _) as [[code [err|]] w1]; simpl; [eauto|].
  destruct (Analyze _ _) as [v [err|]]; simpl; eauto.
Qed.

(** X4. Whatever the environment, the analyzers and the symbol table: the
    orchestrator returns either an offset between 500 and 20000 with a nil
    error, or offset 0 with an error. *)
Theorem loadTPBaseOffset_offset_or_error (kernelSymbols : gmap string Symbol) (w : world) :
  (exists v, fst (loadTPBaseOffset kernelSymbols w) = (v, None) /\ 500 <= v <= 20000) \/
  (exists err, fst (loadTPBaseOffset kernelSymbols w) = (0, Some err)).
Proof.
  unfold loadTPBaseOffset.
  destruct (analyzer_loop_exit_shape GetAnalyzers kernelSymbols 0 w) as [[err H]|[v H]];
    destruct (analyzer_loop _ _ _ _) as [exit w1]; simpl in H; subst exit; simpl; [eauto|].
  destruct (Z.eqb_spec v 0); simpl; [eauto|].
  rewrite Z.gtb_ltb.
  destruct (Z.ltb_spec v 500); destruct (Z.ltb_spec 20000 v); simpl; eauto.
  left. exists v. unfold uint64. by rewrite Z.mod_small by lia.
Qed.

Lemma analyzer_loop_resources (analyzers : list Analyzer)
    (kernelSymbols : gmap string Symbol) (tpbaseOffset : Z) (w : world) :
  resources (snd (analyzer_loop analyzers kernelSymbols tpbaseOffset w)) = resources w.
Proof.
  revert w. induction analyzers as [|analyzer analyzers IH]; intros w0; simpl; [done|].
  destruct (LookupSymbol _ _) as [sym|]; [|apply IH].
  pose proof (loadKernelCode_resources (Address sym) w0) as Hres.
  destruct (loadKernelCode _ _) as [[code [err|]] w1]; simpl in *; [done|].
  by destruct (Analyze _ _) as [v [err|]].
Qed.

(** X5. A discovery, whatever its outcome, leaves the memlock limit, the loaded
    programs and the tracepoint attachments of the process as they were. *)
Theorem loadTPBaseOffset_releases (kernelSymbols : gmap string Symbol) (w : world) :
  resources (snd (loadTPBaseOffset kernelSymbols w)) = resources w.
Proof.
  unfold loadTPBaseOffset.
  pose proof (analyzer_loop_resources GetAnalyzers kernelSymbols 0 w) as Hres.
  destruct (analyzer_loop _ _ _ _) as [[offset err|v] w1]; simpl in *; [done|].
  destruct (v =? 0); [done|]. by destruct (_ || _).
Qed.

(** X6. A discovery makes exactly one extraction, at the address of the first
    analyzer whose function resolves, whether that extraction and the
    decode succeed or not: the world it leaves is the world this one
    extraction leaves. *)
Theorem loadTPBaseOffset_one_extraction (pre rest : list Analyzer) (analyzer : Analyzer)
    (kernelSymbols : gmap string Symbol) (sym : Symbol) (w : world) :
  GetAnalyzers = pre ++ analyzer :: rest ->
  Forall (unresolved kernelSymbols) pre ->
  LookupSymbol kernelSymbols (FunctionName analyzer) = Some sym ->
  snd (loadTPBaseOffset kernelSymbols w) = snd (loadKernelCode (Address sym) w).
Proof.
  intros HGet Hpre Hsym. unfold loadTPBaseOffset.
  rewrite HGet, (analyzer_loop_first_resolved _ _ _ _ sym) by done.
  destruct (loadKernelCode _ _) as [[code [err|]] w1]; simpl; [done|].
  destruct (Analyze _ _) as [v [err|]]; simpl; [done|].
  destruct (v =? 0); [done|]. by destruct (_ || _).
Qed.

(** X7. An offset the orchestrator returns without error was decoded by the
    first analyzer whose function resolves, from the bytes extracted at
    that function's address, and lies between 500 and 20000. *)
Theorem loadTPBaseOffset_offset_origin (kernelSymbols : gmap string Symbol) (w : world)
    (v : Z) :
  fst (loadTPBaseOffset kernelSymbols w) = (v, None) ->
  exists pre analyzer rest sym code,
    GetAnalyzers = pre ++ analyzer :: rest /\
    Forall (unresolved kernelSymbols) pre /\
    LookupSymbol kernelSymbols (FunctionName analyzer) = Some sym /\
    fst (loadKernelCode (Address sym) w) = (Some code, None) /\
    Analyze analyzer code = (v, None) /\
    500 <= v <= 20000.
Proof.
  unfold loadTPBaseOffset.
  destruct (first_resolved_split GetAnalyzers kernelSymbols)
    as [Hnone|(pre & analyzer & rest & sym & HGet & Hpre & Hsym)].
  - rewrite <- (app_nil_r GetAnalyzers), analyzer_loop_skip by done. simpl. done.
  - rewrite HGet, (analyzer_loop_first_resolved _ _ _ _ sym) by done.
    destruct (loadKernelCode (Address sym) w) as [[code [err|]] w1] eqn:Hload;
      simpl; [done|].
    destruct (loadKernelCode_nil_error_has_code (Address sym) w code) as [bytes ->];
      [by rewrite Hload|].
    simpl. destruct (Analyze analyzer bytes) as [v0 [err|]] eqn:Hdecode; simpl; [done|].
    destruct (Z.eqb_spec v0 0); simpl; [done|].
    rewrite Z.gtb_ltb.
    destruct (Z.ltb_spec v0 500); destruct (Z.ltb_spec 20000 v0); simpl; try done.
    unfold uint64. rewrite Z.mod_small by lia. intros [= <-].
    exists pre, analyzer, rest, sym, bytes. rewrite Hload. repeat split; try done; lia.
Qed.

End Tracer.

(** ** The scenarios of the specification, run on the fixtures *)

(** Scenario 1: three analyzers, only the third one's function is in
    the symbol table, and the bytes at its address decode to 3344. *)
Lemma returns_third_analyzers_offset :
  fst (loadTPBaseOffset fx_CodedumpBytes fx_never_fails (fx_kmem 3344) fx_behind_zero
         fx_hex_Dump fx_analyzers fx_only_third fx_world)
  = (3344, None).
Proof.
  destruct (loadTPBaseOffset_first_resolved fx_CodedumpBytes fx_never_fails (fx_kmem 3344)
              fx_behind_zero fx_hex_Dump fx_analyzers [fx_first; fx_second] [] fx_third
              fx_only_third (fx_symbol "kfunc_third") fx_world)
    as [_ Hreturn].
  - reflexivity.
  - repeat constructor.
  - reflexivity.
  - rewrite (Hreturn
               (default [] (fst (fst (loadKernelCode fx_CodedumpBytes fx_never_fails
                                        (fx_kmem 3344) fx_behind_zero fx_base fx_world))))
               (snd (loadKernelCode fx_CodedumpBytes fx_never_fails (fx_kmem 3344)
                       fx_behind_zero fx_base fx_world))
               3344).
    + reflexivity.
    + vm_compute. reflexivity.
    + vm_compute. reflexivity.
    + lia.
Defined.

(** Two runs against the wording "stops at the first analyzer whose symbol
    resolves and whose decode succeeds, returning that analyzer's decoded
    offset". First run: the first
    analyzer's function resolves and its decode fails, the second one's
    resolves and decodes to 3344; the first analyzer "whose symbol resolves
    and whose decode succeeds" yields 3344, yet the orchestrator returns the
    first analyzer's decode error. Second run: only the third analyzer's
    function resolves and it decodes to 50; the orchestrator does not
    return 50 but the error of the range check. *)
Lemma spec_first_decoded_offset_not_returned :
  (spec_first_decoded_offset fx_CodedumpBytes fx_never_fails (fx_kmem 3344) fx_behind_zero
     [fx_first_mismatch; fx_second] fx_first_two fx_world = Some 3344 /\
   fst (loadTPBaseOffset fx_CodedumpBytes fx_never_fails (fx_kmem 3344) fx_behind_zero
          fx_hex_Dump [fx_first_mismatch; fx_second] fx_first_two fx_world)
   = (0, Some (wrapError "unexpected instruction pattern: 128 bytes" fx_no_pattern))) /\
  (spec_first_decoded_offset fx_CodedumpBytes fx_never_fails (fx_kmem 50) fx_behind_zero
     fx_analyzers fx_only_third fx_world = Some 50 /\
   fst (loadTPBaseOffset fx_CodedumpBytes fx_never_fails (fx_kmem 50) fx_behind_zero
          fx_hex_Dump fx_analyzers fx_only_third fx_world)
   = (0, Some (errors_New "tpbase offset 50 doesn't look sane"))).
Proof. vm_compute. repeat split. Qed.

(** Scenario 3: the first analyzer's function resolves and loading the
    restricted program fails; the orchestrator returns that error, and the
    history shows the calls of one extraction only, up to the failed load
    and the restoring of the limit. *)
Lemma aborts_on_failed_program_load :
  loadTPBaseOffset fx_CodedumpBytes fx_ProgLoad_fails (fx_kmem 3344) fx_behind_zero
    fx_hex_Dump fx_analyzers fx_first_two fx_world
  = ((0, Some (errors_New
                 "failed to load tracepoint__sys_enter_bpf: operation not permitted")),
     World (uint64 fx_base) (replicate fx_CodedumpBytes x00) (Rlimit 65536) 0 0
       [(UpdateAddr (uint64 fx_base), true); (MemlockRaise, true); (ProgLoad, false);
        (MemlockRestore, true)]).
Proof.
  apply (loadTPBaseOffset_extraction_error_aborts fx_CodedumpBytes fx_ProgLoad_fails
           (fx_kmem 3344) fx_behind_zero fx_hex_Dump fx_analyzers [] [fx_second; fx_third]
           fx_first fx_first_two (fx_symbol "kfunc_first") fx_world _ None).
  - reflexivity.
  - constructor.
  - reflexivity.
  - vm_compute. reflexivity.
Defined.

(** A decode failure on the fixtures: the first analyzer's function resolves, the bytes
    are extracted, and its decode does not recognise them. *)
Lemma aborts_on_decode_error :
  exists err,
    fst (loadTPBaseOffset fx_CodedumpBytes fx_never_fails (fx_kmem 3344) fx_behind_zero
           fx_hex_Dump [fx_first_mismatch; fx_second] fx_first_two fx_world)
    = (0, Some err) /\
    Unwrap err = Some fx_no_pattern /\
    Error err = "unexpected instruction pattern: 128 bytes"%string.
Proof.
  destruct (loadTPBaseOffset_decode_error_aborts fx_CodedumpBytes fx_never_fails
              (fx_kmem 3344) fx_behind_zero fx_hex_Dump [fx_first_mismatch; fx_second]
              [] [fx_second] fx_first_mismatch fx_first_two (fx_symbol "kfunc_first")
              fx_world
              (snd (loadKernelCode fx_CodedumpBytes fx_never_fails (fx_kmem 3344)
                      fx_behind_zero fx_base fx_world))
              (default [] (fst (fst (loadKernelCode fx_CodedumpBytes fx_never_fails
                                       (fx_kmem 3344) fx_behind_zero fx_base fx_world))))
              0 fx_no_pattern)
    as (err & Hrun & Hunwrap & Htext).
  - reflexivity.
  - constructor.
  - reflexivity.
  - vm_compute. reflexivity.
  - reflexivity.
  - exists err. rewrite Hrun. split; [reflexivity|]. split; [exact Hunwrap|].
    rewrite Htext. vm_compute. reflexivity.
Defined.

(** The boundaries of the range check: the third analyzer decodes to 499, 500, 20000
    and 20001 in turn. *)
Lemma validation_boundaries :
  fst (loadTPBaseOffset fx_CodedumpBytes fx_never_fails (fx_kmem 499) fx_behind_zero
         fx_hex_Dump fx_analyzers fx_only_third fx_world)
  = (0, Some (errors_New "tpbase offset 499 doesn't look sane")) /\
  fst (loadTPBaseOffset fx_CodedumpBytes fx_never_fails (fx_kmem 500) fx_behind_zero
         fx_hex_Dump fx_analyzers fx_only_third fx_world)
  = (500, None) /\
  fst (loadTPBaseOffset fx_CodedumpBytes fx_never_fails (fx_kmem 20000) fx_behind_zero
         fx_hex_Dump fx_analyzers fx_only_third fx_world)
  = (20000, None) /\
  fst (loadTPBaseOffset fx_CodedumpBytes fx_never_fails (fx_kmem 20001) fx_behind_zero
         fx_hex_Dump fx_analyzers fx_only_third fx_world)
  = (0, Some (errors_New "tpbase offset 20001 doesn't look sane")).
Proof.
  pose proof (fun v => loadTPBaseOffset_validation fx_CodedumpBytes fx_never_fails
                (fx_kmem v) fx_behind_zero fx_hex_Dump fx_analyzers fx_only_third
                fx_world
                (snd (analyzer_loop fx_CodedumpBytes fx_never_fails (fx_kmem v)
                        fx_behind_zero fx_hex_Dump fx_analyzers fx_only_third 0 fx_world))
                v) as Hval.
  split; [|split; [|split]].
  - destruct (Hval 499) as (_ & Hreject & _);
      [vm_compute; reflexivity | lia |]. rewrite Hreject by lia. reflexivity.
  - destruct (Hval 500) as (Haccept & _);
      [vm_compute; reflexivity | lia |]. rewrite Haccept by lia. reflexivity.
  - destruct (Hval 20000) as (Haccept & _);
      [vm_compute; reflexivity | lia |]. rewrite Haccept by lia. reflexivity.
  - destruct (Hval 20001) as (_ & Hreject & _);
      [vm_compute; reflexivity | lia |]. rewrite Hreject by lia. reflexivity.
Defined.

(** Scenario 2: the symbol table holds none of the analyzers'
    functions. *)
Lemma not_found_on_unrelated_symbols :
  loadTPBaseOffset fx_CodedumpBytes fx_never_fails (fx_kmem 3344) fx_behind_zero
    fx_hex_Dump fx_analyzers fx_unrelated fx_world
  = ((0, Some (errors_New "no supported symbol found")), fx_world).
Proof.
  apply (loadTPBaseOffset_no_symbol fx_CodedumpBytes fx_never_fails (fx_kmem 3344)
           fx_behind_zero fx_hex_Dump fx_analyzers fx_unrelated fx_world).
  repeat constructor.
Defined.

(** The extraction bridge on the fixtures, with a program load that
    fails. *)
Lemma all_or_nothing_on_fixture :
  wf_world fx_CodedumpBytes fx_world /\
  ((exists code,
      fst (loadKernelCode fx_CodedumpBytes fx_ProgLoad_fails (fx_kmem 3344) fx_behind_zero
             fx_base fx_world) = (Some code, None) /\
      length code = fx_CodedumpBytes) \/
   (exists err,
      fst (loadKernelCode fx_CodedumpBytes fx_ProgLoad_fails (fx_kmem 3344) fx_behind_zero
             fx_base fx_world) = (None, Some err))).
Proof.
  split; [reflexivity|].
  apply (loadKernelCode_all_or_nothing fx_CodedumpBytes fx_ProgLoad_fails (fx_kmem 3344)
           fx_behind_zero fx_base fx_world).
  reflexivity.
Defined.

(** C7, evaluated where the memory behind [value0] is not zero: the
    extraction succeeds and returns the kernel's bytes, and the output slot
    is left with four zero bytes followed by 124 bytes of process memory. *)
Theorem clear_leaves_process_memory_in_slot :
  fst (loadKernelCode fx_CodedumpBytes fx_never_fails (fx_kmem 3344) fx_behind_ff
         fx_base fx_world)
  = (Some ([x10; x0d] ++ replicate 126 x00), None) /\
  codedump_code (snd (loadKernelCode fx_CodedumpBytes fx_never_fails (fx_kmem 3344)
                        fx_behind_ff fx_base fx_world))
  = replicate 4 x00 ++ replicate 124 xff /\
  codedump_code (snd (loadKernelCode fx_CodedumpBytes fx_never_fails (fx_kmem 3344)
                        fx_behind_ff fx_base fx_world))
  <> replicate fx_CodedumpBytes x00.
Proof.
  split; [vm_compute; reflexivity|].
  split; [vm_compute; reflexivity|].
  vm_compute. discriminate.
Qed.

(** The zero sentinel on the fixtures: the third analyzer decodes to 0. *)
Lemma zero_offset_reported_as_not_found :
  fst (loadTPBaseOffset fx_CodedumpBytes fx_never_fails (fx_kmem 0) fx_behind_zero
         fx_hex_Dump fx_analyzers fx_only_third fx_world)
  = (0, Some (errors_New "no supported symbol found")).
Proof.
  destruct (loadTPBaseOffset_zero_is_not_found fx_CodedumpBytes fx_never_fails
              (fx_kmem 0) fx_behind_zero fx_hex_Dump fx_analyzers [fx_first; fx_second]
              [] fx_third fx_only_third (fx_symbol "kfunc_third") fx_world
              (snd (loadKernelCode fx_CodedumpBytes fx_never_fails (fx_kmem 0)
                      fx_behind_zero fx_base fx_world))
              (default [] (fst (fst (loadKernelCode fx_CodedumpBytes fx_never_fails
                                       (fx_kmem 0) fx_behind_zero fx_base fx_world)))))
    as [Hrun _].
  - reflexivity.
  - repeat constructor.
  - reflexivity.
  - vm_compute. reflexivity.
  - vm_compute. reflexivity.
  - rewrite Hrun. reflexivity.
Defined.

(** ** Properties of LoaderInfo *)

(** C10. The accessors of a LoaderInfo built by [NewLoaderInfo] return the
    file ID and the gaps that were passed to the constructor. *)
Theorem NewLoaderInfo_accessors {Reference : Type} (f : Z) (r : Reference)
    (g : list Range) :
  FileID (NewLoaderInfo f r g) = f /\ Gaps (NewLoaderInfo f r g) = g.
Proof. split; reflexivity. Qed.

(** X8. [GetSymbolAsRanges] returns either exactly one range and a nil error,
    or a nil slice and an error. *)
Theorem GetSymbolAsRanges_one_range_or_error {Reference File pfelf : Type}
    (Reference_GetELF : Reference -> pfelf -> (goerror + File) * pfelf)
    (File_LookupSymbol : File -> string -> pfelf -> (goerror + Symbol) * pfelf)
    (i : LoaderInfo Reference) (symbol : string) (st : pfelf) :
  (exists r, fst (GetSymbolAsRanges Reference_GetELF File_LookupSymbol i symbol st)
             = (Some [r], None)) \/
  (exists err, fst (GetSymbolAsRanges Reference_GetELF File_LookupSymbol i symbol st)
               = (None, Some err)).
Proof.
  unfold GetSymbolAsRanges, GetELF.
  destruct (Reference_GetELF _ _) as [[err|ef] st1]; simpl; [eauto|].
  destruct (File_LookupSymbol _ _ _) as [[err|sym] st2]; simpl; eauto.
Qed.

(** X9. For a symbol that lies inside the 64-bit address space, the range
    starts at the symbol's address and ends at address plus size. *)
Theorem GetSymbolAsRanges_covers_symbol {Reference File pfelf : Type}
    (Reference_GetELF : Reference -> pfelf -> (goerror + File) * pfelf)
    (File_LookupSymbol : File -> string -> pfelf -> (goerror + Symbol) * pfelf)
    (i : LoaderInfo Reference) (symbol : string) (st st1 st2 : pfelf)
    (ef : File) (sym : Symbol) :
  Reference_GetELF (elfRef i) st = (inr ef, st1) ->
  File_LookupSymbol ef symbol st1 = (inr sym, st2) ->
  0 <= Address sym -> 0 <= Size sym -> Address sym + Size sym < 2 ^ 64 ->
  GetSymbolAsRanges Reference_GetELF File_LookupSymbol i symbol st
  = ((Some [ {| Start := Address sym; End := Address sym + Size sym |} ], None), st2).
Proof.
  intros Helf Hsym Ha Hs Hfit. unfold GetSymbolAsRanges, GetELF.
  rewrite Helf, Hsym. unfold uint64.
  rewrite (Z.mod_small (Address sym)), (Z.mod_small (Size sym)) by lia.
  by rewrite Z.mod_small by lia.
Qed.

(** X10. For a symbol whose end lies beyond the 64-bit address space the sum
    wraps: the range ends at address plus size minus 2^64, below its
    start. *)
Theorem GetSymbolAsRanges_wraps {Reference File pfelf : Type}
    (Reference_GetELF : Reference -> pfelf -> (goerror + File) * pfelf)
    (File_LookupSymbol : File -> string -> pfelf -> (goerror + Symbol) * pfelf)
    (i : LoaderInfo Reference) (symbol : string) (st st1 st2 : pfelf)
    (ef : File) (sym : Symbol) :
  Reference_GetELF (elfRef i) st = (inr ef, st1) ->
  File_LookupSymbol ef symbol st1 = (inr sym, st2) ->
  0 <= Address sym < 2 ^ 64 -> 0 <= Size sym < 2 ^ 64 ->
  2 ^ 64 <= Address sym + Size sym ->
  exists r,
    GetSymbolAsRanges Reference_GetELF File_LookupSymbol i symbol st
    = ((Some [r], None), st2) /\
    Start r = Address sym /\
    End r = Address sym + Size sym - 2 ^ 64 /\
    End r < Start r.
Proof.
  intros Helf Hsym Ha Hs Hover. unfold GetSymbolAsRanges, GetELF.
  rewrite Helf, Hsym. eexists. split; [reflexivity|]. simpl. unfold uint64.
  rewrite (Z.mod_small (Address sym)), (Z.mod_small (Size sym)) by lia.
  assert ((Address sym + Size sym) mod 2 ^ 64 = Address sym + Size sym - 2 ^ 64) as ->.
  { symmetry. apply (Z.mod_unique _ _ 1); lia. }
  lia.
Qed.

(** When the ELF cannot be opened, [GetSymbolAsRanges] returns the error of
    [GetELF] itself, and no symbol is looked up. *)
Theorem GetSymbolAsRanges_elf_error {Reference File pfelf : Type}
    (Reference_GetELF : Reference -> pfelf -> (goerror + File) * pfelf)
    (File_LookupSymbol : File -> string -> pfelf -> (goerror + Symbol) * pfelf)
    (i : LoaderInfo Reference) (symbol : string) (st st1 : pfelf) (err : goerror) :
  Reference_GetELF (elfRef i) st = (inl err, st1) ->
  GetSymbolAsRanges Reference_GetELF File_LookupSymbol i symbol st
  = ((None, Some err), st1).
Proof. intros Helf. unfold GetSymbolAsRanges, GetELF. by rewrite Helf. Qed.

(** X11. When the symbol is not found, the error names the symbol and wraps the
    error of the lookup. *)
Theorem GetSymbolAsRanges_lookup_error {Reference File pfelf : Type}
    (Reference_GetELF : Reference -> pfelf -> (goerror + File) * pfelf)
    (File_LookupSymbol : File -> string -> pfelf -> (goerror + Symbol) * pfelf)
    (i : LoaderInfo Reference) (symbol : string) (st st1 st2 : pfelf)
    (ef : File) (cause : goerror) :
  Reference_GetELF (elfRef i) st = (inr ef, st1) ->
  File_LookupSymbol ef symbol st1 = (inl cause, st2) ->
  exists err,
    GetSymbolAsRanges Reference_GetELF File_LookupSymbol i symbol st
    = ((None, Some err), st2) /\
    Unwrap err = Some cause /\
    Error err = "symbol '" +:+ symbol +:+ "' not found: " +:+ Error cause.
Proof.
  intros Helf Hsym. unfold GetSymbolAsRanges, GetELF. rewrite Helf, Hsym.
  eexists. split; [reflexivity|]. done.
Qed.

(** ** The further properties on the fixtures *)


(** The address stays in the input slot after a call that failed later. *)
Lemma address_left_after_failed_load :
  codedump_addr (snd (loadKernelCode fx_CodedumpBytes fx_ProgLoad_fails (fx_kmem 3344)
                        fx_behind_zero fx_base fx_world))
  = fx_base.
Proof.
  rewrite (loadKernelCode_leaves_address fx_CodedumpBytes fx_ProgLoad_fails (fx_kmem 3344)
             fx_behind_zero fx_base fx_world).
  - vm_compute. reflexivity.
  - reflexivity.
Defined.

(** Only the third analyzer's function resolves: the world after the
    discovery is the world after the extraction at its address. *)
Lemma one_extraction_at_third :
  snd (loadTPBaseOffset fx_CodedumpBytes fx_never_fails (fx_kmem 3344) fx_behind_zero
         fx_hex_Dump fx_analyzers fx_only_third fx_world)
  = snd (loadKernelCode fx_CodedumpBytes fx_never_fails (fx_kmem 3344) fx_behind_zero
           fx_base fx_world).
Proof.
  apply (loadTPBaseOffset_one_extraction fx_CodedumpBytes fx_never_fails (fx_kmem 3344)
           fx_behind_zero fx_hex_Dump fx_analyzers [fx_first; fx_second] [] fx_third
           fx_only_third (fx_symbol "kfunc_third") fx_world).
  - reflexivity.
  - repeat constructor.
  - reflexivity.
Defined.

(** The offset 3344 of scenario 1 traced back to its analyzer. *)
Lemma origin_of_3344 :
  exists pre analyzer rest sym code,
    fx_analyzers = pre ++ analyzer :: rest /\
    Forall (unresolved fx_only_third) pre /\
    LookupSymbol fx_only_third (FunctionName analyzer) = Some sym /\
    fst (loadKernelCode fx_CodedumpBytes fx_never_fails (fx_kmem 3344) fx_behind_zero
           (Address sym) fx_world) = (Some code, None) /\
    Analyze analyzer code = (3344, None) /\
    500 <= 3344 <= 20000.
Proof.
  apply (loadTPBaseOffset_offset_origin fx_CodedumpBytes fx_never_fails (fx_kmem 3344)
           fx_behind_zero fx_hex_Dump fx_analyzers fx_only_third fx_world 3344).
  vm_compute. reflexivity.
Defined.

(** A symbol inside the address space. *)
Lemma range_of_PyEval_EvalFrame :
  GetSymbolAsRanges fx_GetELF fx_LookupSymbol fx_loader "PyEval_EvalFrame" 0%nat
  = ((Some [ {| Start := 0x4000; End := 0x4020 |} ], None), 1%nat).
Proof.
  apply (GetSymbolAsRanges_covers_symbol fx_GetELF fx_LookupSymbol fx_loader
           "PyEval_EvalFrame" 0%nat 1%nat 1%nat fx_elf
           {| Name := "PyEval_EvalFrame"; Address := 0x4000; Size := 0x20 |}).
  - reflexivity.
  - reflexivity.
  - simpl. lia.
  - simpl. lia.
  - simpl. lia.
Defined.

(** A symbol of 32 bytes that starts 16 bytes below the top of the address
    space: the range ends at 16. *)
Lemma range_of_top_wraps :
  exists r,
    GetSymbolAsRanges fx_GetELF fx_LookupSymbol fx_loader "top" 0%nat
    = ((Some [r], None), 1%nat) /\
    Start r = 2 ^ 64 - 16 /\ End r = 16 /\ End r < Start r.
Proof.
  destruct (GetSymbolAsRanges_wraps fx_GetELF fx_LookupSymbol fx_loader "top"
              0%nat 1%nat 1%nat fx_elf
              {| Name := "top"; Address := 2 ^ 64 - 16; Size := 32 |})
    as (r & Hrun & Hstart & Hend & Hlt).
  - reflexivity.
  - reflexivity.
  - simpl. lia.
  - simpl. lia.
  - simpl. lia.
  - exists r. split; [exact Hrun|]. split; [exact Hstart|]. split; [|exact Hlt].
    rewrite Hend. reflexivity.
Defined.

(** An ELF that cannot be opened. *)
Lemma ranges_of_missing_elf :
  GetSymbolAsRanges fx_GetELF fx_LookupSymbol fx_loader_gone "PyEval_EvalFrame" 0%nat
  = ((None, Some fx_ENOENT), 0%nat).
Proof.
  apply (GetSymbolAsRanges_elf_error fx_GetELF fx_LookupSymbol fx_loader_gone
           "PyEval_EvalFrame" 0%nat 0%nat fx_ENOENT).
  reflexivity.
Defined.

(** A symbol the ELF does not have. *)
Lemma ranges_of_missing_symbol :
  exists err,
    GetSymbolAsRanges fx_GetELF fx_LookupSymbol fx_loader "_PyRuntime" 0%nat
    = ((None, Some err), 1%nat) /\
    Unwrap err = Some fx_symbol_not_found /\
    Error err = "symbol '_PyRuntime' not found: symbol not found"%string.
Proof.
  destruct (GetSymbolAsRanges_lookup_error fx_GetELF fx_LookupSymbol fx_loader
              "_PyRuntime" 0%nat 1%nat 1%nat fx_elf fx_symbol_not_found)
    as (err & Hrun & Hunwrap & Htext).
  - reflexivity.
  - reflexivity.
  - exists err. split; [exact Hrun|]. split; [exact Hunwrap|].
    rewrite Htext. reflexivity.
Defined.
